(** * x402 local facilitator: a shallow embedding of [src/index.ts]

    The facilitator is an Express application with five routes.  Its own
    logic is the wiring: which client or signer is built for which network,
    in which order the library calls happen, what is caught and what is
    answered.  Everything cryptographic or on-chain is done by imported
    libraries ([x402/facilitator], [x402/types], [ethers], [zod] schemas).

    The embedding follows that split.  Library values are abstract handles
    ([Handles]), library functions are the fields of an interface
    ([Library]) whose asynchronous members act on an abstract [World], and
    the handlers are written in a small monad that threads the world,
    collects a trace of observable events (library calls and console
    lines) and propagates JavaScript exceptions. *)

From Stdlib Require Import ZArith String List.
From stdpp Require Import base option list strings gmap pretty.

Local Open Scope Z_scope.

(** ** JavaScript values used by the handlers *)

(** A thrown value.  Libraries throw [Error] objects; the handlers only
    ever log them or apply [String(error)]. *)
Record exn : Type := MkExn { exn_name : string; exn_message : string }.

(** [new Error(message)] *)
Definition Error_ (message : string) : exn :=
  {| exn_name := "Error"; exn_message := message |}.

(** [String(error)] for an Error object, i.e. [Error.prototype.toString]. *)
Definition String_ (e : exn) : string :=
  if String.eqb (exn_name e) "" then exn_message e
  else if String.eqb (exn_message e) "" then exn_name e
  else exn_name e +:+ ": " +:+ exn_message e.

(** Truthiness of a string: only the empty string is falsy. *)
Definition truthy (s : string) : bool := negb (String.eqb s "").

(** [v || d] for [v : string | undefined]. *)
Definition or_else (v : option string) (d : string) : string :=
  match v with
  | Some s => if truthy s then s else d
  | None => d
  end.

(** [list.includes(x)] on an array of strings. *)
Definition includes (l : list string) (x : string) : bool :=
  existsb (String.eqb x) l.

(** [n.toString()] for an integral number. *)
Definition toString (n : Z) : string := pretty n.

(** ** Data model (types imported from [x402/types]) *)

Record PaymentRequirements : Type := {
  scheme : string;
  network : string;
  maxAmountRequired : string;
  asset : string;
  payTo : string
}.

Record Authorization : Type := {
  from : string;
  to : string;
  value : string
}.

(** The scheme-specific payload: the EVM "exact" payload carries an
    [authorization], the SVM one only a serialized transaction. *)
Inductive SchemePayload : Type :=
| ExactEvmPayload (signature : string) (authorization : Authorization)
| ExactSvmPayload (transaction : string).

Record PaymentPayload : Type := {
  x402Version : Z;
  payload_scheme : string;
  payload_network : string;
  payload : SchemePayload
}.

Record SvmConfig : Type := { rpcUrl : string }.
Record X402Config : Type := { svmConfig : SvmConfig }.

(** Receipt of [settle]: it has a success flag of its own. *)
Record SettlementResult : Type := {
  success : bool;
  transaction : string;
  settled_network : string
}.

Record Extra : Type := { feePayer : option string }.

Record SupportedPaymentKind : Type := {
  kind_x402Version : Z;
  kind_scheme : string;
  kind_network : string;
  extra : option Extra
}.

(** One entry of [ERC20_ABI]. *)
Record AbiFunction : Type := {
  abi_name : string;
  abi_inputs : list (string * string);
  abi_outputs : list (string * string);
  stateMutability : string
}.

Definition ERC20_ABI : list AbiFunction :=
  [ {| abi_name := "decimals"; abi_inputs := [];
       abi_outputs := [("", "uint8")]; stateMutability := "view" |};
    {| abi_name := "transfer";
       abi_inputs := [("to", "address"); ("value", "uint256")];
       abi_outputs := [("", "bool")]; stateMutability := "nonpayable" |} ].

(** ** Opaque library values *)

Class Handles : Type := {
  Json : Type;                 (* an unvalidated request field *)
  ConnectedClient : Type;      (* x402: read/simulate-capable EVM client *)
  Signer : Type;               (* x402: signing agent *)
  VerifyResponse : Type;       (* x402: verdict of [verify] *)
  JsNumber : Type;             (* a JavaScript number, as [Number(s)] yields *)
  JsonRpcProvider : Type;      (* ethers *)
  Wallet : Type;               (* ethers *)
  Contract : Type;             (* ethers *)
  TransactionResponse : Type;  (* ethers *)
  World : Type                 (* chains, RPC endpoints: all external state *)
}.

Inductive result (A : Type) : Type :=
| Ok (a : A)
| Throw (e : exn).
Arguments Ok {A} a.
Arguments Throw {A} e.

Section Model.
Context {H : Handles}.

(** [let client: Signer | ConnectedClient] *)
Inductive Client : Type :=
| ClientConnected (c : ConnectedClient)
| ClientSigner (s : Signer).

(** An asynchronous library call: it may change the world, and it either
    resolves to a value or rejects. *)
Definition async (A : Type) : Type := World -> result A * World.

(** The imported functions, constants and constructors. *)
Class Library : Type := {
  SupportedEVMNetworks : list string;
  SupportedSVMNetworks : list string;
  PaymentRequirementsSchema_parse : Json -> result PaymentRequirements;
  PaymentPayloadSchema_parse : Json -> result PaymentPayload;
  createConnectedClient : string -> result ConnectedClient;
  createSigner : string -> string -> async Signer;
  isSvmSignerWallet : Signer -> bool;
  signer_address : Signer -> string;
  verify : Client -> PaymentPayload -> PaymentRequirements ->
           option X402Config -> async VerifyResponse;
  settle : Signer -> PaymentPayload -> PaymentRequirements ->
           option X402Config -> async SettlementResult;
  Number_ : string -> JsNumber;
  new_JsonRpcProvider : string -> result JsonRpcProvider;
  new_Wallet : string -> JsonRpcProvider -> result Wallet;
  new_Contract : option string -> list AbiFunction -> Wallet -> result Contract;
  token_decimals : Contract -> async Z;
  token_transfer : Contract -> string -> Z -> async TransactionResponse;
  parseUnits : string -> Z -> result Z;
  tx_hash : TransactionResponse -> string;
  tx_wait : TransactionResponse -> async unit
}.

(** ** Observable events *)

(** The library calls that build a capability or reach a chain. *)
Inductive call : Type :=
| CcreateConnectedClient (network : string)
| CcreateSigner (network privateKey : string)
| Cverify (client : Client) (p : PaymentPayload) (r : PaymentRequirements)
          (cfg : option X402Config)
| Csettle (signer : Signer) (p : PaymentPayload) (r : PaymentRequirements)
          (cfg : option X402Config)
| CnewJsonRpcProvider (url : string)
| CnewWallet (privateKey : string)
| CnewContract (tokenAddress : option string)
| Cdecimals
| Ctransfer (to : string) (value : Z)
| Cwait.

(** The lines written with [console.log] and [console.error]. *)
Inductive logline : Type :=
| LogSendCalled (to : string) (tokenAddress : option string) (amount : Z)
| LogDecimalAmount (decimalAmount : Z)
| LogBroadcasting (hash : string)
| LogSent (amount : Z) (to hash : string)
| LogSettlementComplete (settlement : SettlementResult)
| LogCashbackEligible (amount : Z) (percent : JsNumber)
| LogSolanaNotImplemented
| LogVerifyError (error : exn)
| LogSettleError (error : exn).

Inductive event : Type :=
| Invoke (c : call)             (* the call is made *)
| Returned (c : call)           (* it returned / its promise resolved *)
| Threw (c : call) (e : exn)    (* it threw / its promise rejected *)
| Log (l : logline).

(** ** The handler monad: world, trace, exceptions *)

Definition M (A : Type) : Type := World -> result A * World * list event.

Definition ret {A} (a : A) : M A := fun w => (Ok a, w, []).

Definition throw {A} (e : exn) : M A := fun w => (Throw e, w, []).

Definition bind {A B} (m : M A) (k : A -> M B) : M B :=
  fun w =>
    match m w with
    | (Ok a, w1, t1) => let '(r, w2, t2) := k a w1 in (r, w2, t1 ++ t2)
    | (Throw e, w1, t1) => (Throw e, w1, t1)
    end.

(** [try { m } catch (error) { h error }], also [promise.catch(h)]. *)
Definition try_catch {A} (m : M A) (h : exn -> M A) : M A :=
  fun w =>
    match m w with
    | (Ok a, w1, t1) => (Ok a, w1, t1)
    | (Throw e, w1, t1) => let '(r, w2, t2) := h e w1 in (r, w2, t1 ++ t2)
    end.

Definition outcome {A} (c : call) (r : result A) : event :=
  match r with
  | Ok _ => Returned c
  | Throw e => Threw c e
  end.

(** A pure library function that may throw; nothing is recorded. *)
Definition lift {A} (r : result A) : M A := fun w => (r, w, []).

(** A synchronous constructor call, recorded in the trace. *)
Definition construct {A} (c : call) (r : result A) : M A :=
  fun w => (r, w, [Invoke c; outcome c r]).

(** [await f(...)], recorded in the trace. *)
Definition await {A} (c : call) (f : async A) : M A :=
  fun w => let '(r, w') := f w in (r, w', [Invoke c; outcome c r]).

Definition console (l : logline) : M unit := fun w => (Ok tt, w, [Log l]).

End Model.

Global Instance M_ret `{Handles} : MRet M := @ret _.
Global Instance M_bind `{Handles} : MBind M := fun A B k m => bind m k.

(** ** HTTP requests and responses *)

Section Facade.
Context {H : Handles} {L : Library}.

(** [req.body] as left by [express.json()]. *)
Record Request : Type := {
  body_paymentPayload : Json;
  body_paymentRequirements : Json
}.

Record CashbackRecord : Type := {
  amount : Z;
  txHash : option string;
  percent : JsNumber
}.

Inductive Body : Type :=
| BDoc (endpoint description doc_payload doc_requirements : string)
| BVerify (valid : VerifyResponse)
| BSettle (ok : bool) (settlement : SettlementResult) (cashback : CashbackRecord)
| BSupported (kinds : list SupportedPaymentKind)
| BError (error : string).

Record Response : Type := { status : Z; body : Body }.

(** [res.json(b)] and [res.status(s).json(b)] *)
Definition json (b : Body) : Response := {| status := 200; body := b |}.
Definition status_json (s : Z) (b : Body) : Response := {| status := s; body := b |}.

(** ** Configuration *)

(** [process.env] *)
Variable env : gmap string string.

Definition EVM_PRIVATE_KEY : string := or_else (env !! "EVM_PRIVATE_KEY") "".
Definition EVM_RPC_URL : string :=
  or_else (env !! "EVM_RPC_URL") "https://sepolia.base.org".
Definition SVM_PRIVATE_KEY : string := or_else (env !! "SVM_PRIVATE_KEY") "".
Definition SVM_RPC_URL : string := or_else (env !! "SVM_RPC_URL") "".

(** The start-up check: the process exits when both keys are absent. *)
Definition exits_at_startup : bool :=
  negb (truthy EVM_PRIVATE_KEY) && negb (truthy SVM_PRIVATE_KEY).

Definition x402Config : option X402Config :=
  if truthy SVM_RPC_URL
  then Some {| svmConfig := {| rpcUrl := SVM_RPC_URL |} |}
  else None.

(** ** [sendEvmCashback] *)

Definition sendEvmCashback (to : string) (tokenAddress : option string)
    (amount : Z) : M string :=
  console (LogSendCalled to tokenAddress amount);;
  provider ← construct (CnewJsonRpcProvider EVM_RPC_URL)
                       (new_JsonRpcProvider EVM_RPC_URL);
  wallet ← construct (CnewWallet EVM_PRIVATE_KEY)
                     (new_Wallet EVM_PRIVATE_KEY provider);
  token ← construct (CnewContract tokenAddress)
                    (new_Contract tokenAddress ERC20_ABI wallet);
  decimals ← try_catch (await Cdecimals (token_decimals token))
                       (fun _ => ret 18);
  decimalAmount ← lift (parseUnits (toString amount) decimals);
  console (LogDecimalAmount decimalAmount);;
  tx ← await (Ctransfer to decimalAmount) (token_transfer token to decimalAmount);
  console (LogBroadcasting (tx_hash tx));;
  await Cwait (tx_wait tx);;
  console (LogSent amount to (tx_hash tx));;
  ret (tx_hash tx).

(** ** Routes *)

Definition get_verify : M Response :=
  ret (json (BDoc "/verify" "POST to verify x402 payments"
                  "PaymentPayload" "PaymentRequirements")).

Definition post_verify (req : Request) : M Response :=
  try_catch
    (paymentRequirements ←
       lift (PaymentRequirementsSchema_parse (body_paymentRequirements req));
     paymentPayload ←
       lift (PaymentPayloadSchema_parse (body_paymentPayload req));
     client ←
       (if includes SupportedEVMNetworks (network paymentRequirements) then
          c ← construct (CcreateConnectedClient (network paymentRequirements))
                        (createConnectedClient (network paymentRequirements));
          ret (ClientConnected c)
        else if includes SupportedSVMNetworks (network paymentRequirements) then
          s ← await (CcreateSigner (network paymentRequirements) SVM_PRIVATE_KEY)
                    (createSigner (network paymentRequirements) SVM_PRIVATE_KEY);
          ret (ClientSigner s)
        else throw (Error_ "Invalid network"));
     valid ← await (Cverify client paymentPayload paymentRequirements x402Config)
                   (verify client paymentPayload paymentRequirements x402Config);
     ret (json (BVerify valid)))
    (fun error =>
       console (LogVerifyError error);;
       ret (status_json 400 (BError "Invalid request"))).

Definition get_settle : M Response :=
  ret (json (BDoc "/settle" "POST to settle x402 payments"
                  "PaymentPayload" "PaymentRequirements")).

Definition get_supported : M Response :=
  let kinds : list SupportedPaymentKind := [] in
  let kinds :=
    if truthy EVM_PRIVATE_KEY then
      kinds ++ [ {| kind_x402Version := 1; kind_scheme := "exact";
                    kind_network := "base-sepolia"; extra := None |} ]
    else kinds in
  kinds ←
    (if truthy SVM_PRIVATE_KEY then
       signer ← await (CcreateSigner "solana-devnet" SVM_PRIVATE_KEY)
                      (createSigner "solana-devnet" SVM_PRIVATE_KEY);
       let feePayer :=
         if isSvmSignerWallet signer then Some (signer_address signer) else None in
       ret (kinds ++ [ {| kind_x402Version := 1; kind_scheme := "exact";
                          kind_network := "solana-devnet";
                          extra := Some {| feePayer := feePayer |} |} ])
     else ret kinds);
  ret (json (BSupported kinds)).

Definition cashbackAmount : Z := 1.

(** [let payer: string | undefined], set when the scheme payload has an
    [authorization]. *)
Definition payer_of (p : PaymentPayload) : option string :=
  match payload p with
  | ExactEvmPayload _ auth => Some (from auth)
  | ExactSvmPayload _ => None
  end.

(** Truthiness of [payer : string | undefined]. *)
Definition payer_truthy (payer : option string) : bool :=
  match payer with
  | Some a => truthy a
  | None => false
  end.

(** Step 3 of [POST /settle]: the cashback, yielding [cashbackTxHash]. *)
Definition send_cashback (payer : option string) (net : string)
    : M (option string) :=
  match payer with
  | Some a =>
      if truthy a && (0 <? cashbackAmount) then
        if includes SupportedEVMNetworks net then
          let tokenAddr := env !! "EVM_CASHBACK_TOKEN" in
          h ← sendEvmCashback a tokenAddr cashbackAmount;
          ret (Some h)
        else if includes SupportedSVMNetworks net then
          console LogSolanaNotImplemented;;
          ret None
        else ret None
      else ret None
  | None => ret None
  end.

Definition post_settle (req : Request) : M Response :=
  try_catch
    (paymentRequirements ←
       lift (PaymentRequirementsSchema_parse (body_paymentRequirements req));
     paymentPayload ←
       lift (PaymentPayloadSchema_parse (body_paymentPayload req));
     signer ←
       (if includes SupportedEVMNetworks (network paymentRequirements) then
          await (CcreateSigner (network paymentRequirements) EVM_PRIVATE_KEY)
                (createSigner (network paymentRequirements) EVM_PRIVATE_KEY)
        else if includes SupportedSVMNetworks (network paymentRequirements) then
          await (CcreateSigner (network paymentRequirements) SVM_PRIVATE_KEY)
                (createSigner (network paymentRequirements) SVM_PRIVATE_KEY)
        else throw (Error_ "Invalid network"));
     settlement ←
       await (Csettle signer paymentPayload paymentRequirements x402Config)
             (settle signer paymentPayload paymentRequirements x402Config);
     console (LogSettlementComplete settlement);;
     let cashbackPercent := Number_ (or_else (env !! "CASHBACK_PERCENT") "2") in
     let payer := payer_of paymentPayload in
     console (LogCashbackEligible cashbackAmount cashbackPercent);;
     cashbackTxHash ← send_cashback payer (network paymentRequirements);
     ret (json (BSettle true settlement
                  {| amount := cashbackAmount;
                     txHash := cashbackTxHash;
                     percent := cashbackPercent |})))
    (fun error =>
       console (LogSettleError error);;
       ret (status_json 400 (BError (String_ error)))).

(** ["authorization" in paymentPayload.payload] *)
Definition has_authorization (p : PaymentPayload) : bool :=
  match payload p with
  | ExactEvmPayload _ _ => true
  | ExactSvmPayload _ => false
  end.

(** The private key [POST /settle] hands to [createSigner]. *)
Definition settle_key (net : string) : string :=
  if includes SupportedEVMNetworks net then EVM_PRIVATE_KEY else SVM_PRIVATE_KEY.

(** Modelled from the spec: [createSigner] is imported from [x402/types]
    and its code is not part of the sources; section 4.2 says of signer
    construction that it "fails with a configuration error if the required
    private key for the resolved family is empty/missing".  This is that
    contract, for the library function the handlers call. *)
Definition createSigner_rejects_empty_key : Prop :=
  forall (net : string) (w : World),
    exists (e : exn) (w' : World), createSigner net "" w = (Throw e, w').

(** Schema validation of the body throws [e]: the requirements are parsed
    first, the payload only when they are valid. *)
Definition validation_error (req : Request) (e : exn) : Prop :=
  PaymentRequirementsSchema_parse (body_paymentRequirements req) = Throw e \/
  (exists r,
     PaymentRequirementsSchema_parse (body_paymentRequirements req) = Ok r /\
     PaymentPayloadSchema_parse (body_paymentPayload req) = Throw e).

(** An environment variable that is unset, or set to the empty string. *)
Definition unset_or_empty (name : string) : Prop :=
  env !! name = None \/ env !! name = Some "".

(** The two allow-lists name different networks. *)
Definition families_disjoint : Prop :=
  forall n, includes SupportedEVMNetworks n = true ->
            includes SupportedSVMNetworks n = false.

End Facade.

(** ** Reading a trace *)

Section Traces.
Context {H : Handles}.

(** The calls made by [sendEvmCashback]. *)
Definition is_cashback_call (c : call) : bool :=
  match c with
  | CnewJsonRpcProvider _ | CnewWallet _ | CnewContract _
  | Cdecimals | Ctransfer _ _ | Cwait => true
  | _ => false
  end.

(** Everything [sendEvmCashback] does: its console lines and its calls. *)
Definition is_cashback_event (e : event) : bool :=
  match e with
  | Log (LogSendCalled _ _ _) | Log (LogDecimalAmount _)
  | Log (LogBroadcasting _) | Log (LogSent _ _ _) => true
  | Log _ => false
  | Invoke c | Returned c | Threw c _ => is_cashback_call c
  end.

Definition settle_returned (e : event) : bool :=
  match e with
  | Returned (Csettle _ _ _ _) => true
  | _ => false
  end.

Definition settle_threw (e : event) : bool :=
  match e with
  | Threw (Csettle _ _ _ _) _ => true
  | _ => false
  end.

(** A client or a signer is being built. *)
Definition is_construction (e : event) : bool :=
  match e with
  | Invoke (CcreateConnectedClient _) | Invoke (CcreateSigner _ _) => true
  | _ => false
  end.

Definition is_invoke (e : event) : bool :=
  match e with
  | Invoke _ => true
  | _ => false
  end.

Definition settle_invoked (e : event) : bool :=
  match e with
  | Invoke (Csettle _ _ _ _) => true
  | _ => false
  end.

Definition verify_invoked (e : event) : bool :=
  match e with
  | Invoke (Cverify _ _ _ _) => true
  | _ => false
  end.

Definition transfer_invoked (e : event) : bool :=
  match e with
  | Invoke (Ctransfer _ _) => true
  | _ => false
  end.

(** The "Cashback eligible" console line, the one place where the percent
    shows up in a trace. *)
Definition is_eligible_log (e : event) : bool :=
  match e with
  | Log (LogCashbackEligible _ _) => true
  | _ => false
  end.

(** The calls that reach the chain from [sendEvmCashback]. *)
Definition is_chain_call (e : event) : bool :=
  match e with
  | Invoke Cdecimals | Invoke (Ctransfer _ _) | Invoke Cwait => true
  | _ => false
  end.

(** Scan of a trace: no cashback event before [settle] has returned.
    [settled] tells whether the return has been seen already. *)
Fixpoint settled_before_cashback (settled : bool) (tr : list event) : bool :=
  match tr with
  | [] => true
  | e :: tr' =>
      if is_cashback_event e then settled && settled_before_cashback settled tr'
      else settled_before_cashback (settled || settle_returned e) tr'
  end.

End Traces.

(** The three components of a run. *)
Definition response_of {A W T : Type} (o : A * W * T) : A := o.1.1.
Definition world_of {A W T : Type} (o : A * W * T) : W := o.1.2.
Definition trace_of {A W T : Type} (o : A * W * T) : T := o.2.

(** ** A test double for the libraries

    A concrete world with fault injection: [faults] names the library
    calls that reject, [ledger] records the token transfers made. *)

Module Stub.

Inductive raw_json : Type :=
| JRequirements (r : PaymentRequirements)
| JPayload (p : PaymentPayload)
| JUndefined.

Record world : Type := {
  faults : list string;
  ledger : list (string * Z)
}.

Definition faulty (f : string) (w : world) : bool := includes (faults w) f.

Definition ZodError : exn :=
  {| exn_name := "ZodError"; exn_message := "Required" |}.

Definition digit (a : Ascii.ascii) : option Z :=
  let n := Z.of_nat (Ascii.nat_of_ascii a) in
  if (48 <=? n) && (n <=? 57) then Some (n - 48) else None.

Fixpoint digits (acc : Z) (s : string) : option Z :=
  match s with
  | EmptyString => Some acc
  | String a s' =>
      match digit a with
      | Some d => digits (10 * acc + d) s'
      | None => None
      end
  end.

#[export] Instance handles : Handles := {|
  Json := raw_json;
  ConnectedClient := string;
  Signer := string * string;
  VerifyResponse := bool;
  JsNumber := option Z;
  JsonRpcProvider := string;
  Wallet := string;
  Contract := option string;
  TransactionResponse := string;
  World := world
|}.

Definition signer_for (net key : string) : Signer := (net, key) : string * string.

Definition rejecting {A} (f : string) (a : A) : async A :=
  fun w => if faulty f w then (Throw (Error_ (f +:+ " failed")), w) else (Ok a, w).

#[export] Instance library : Library := {|
  SupportedEVMNetworks := ["base-sepolia"; "base"];
  SupportedSVMNetworks := ["solana-devnet"; "solana"];
  PaymentRequirementsSchema_parse j :=
    match j with JRequirements r => Ok r | _ => Throw ZodError end;
  PaymentPayloadSchema_parse j :=
    match j with JPayload p => Ok p | _ => Throw ZodError end;
  createConnectedClient n := Ok n;
  createSigner n k :=
    if truthy k then rejecting "createSigner" (n, k)
    else fun w => (Throw (Error_ "private key is missing"), w);
  isSvmSignerWallet s := includes ["solana-devnet"; "solana"] (fst s);
  signer_address s := "addr:" +:+ snd s;
  verify c p r cfg := rejecting "verify" true;
  settle s p r cfg :=
    rejecting "settle"
      {| success := negb (String.eqb (asset r) "");
         transaction := "0xsettled"; settled_network := network r |};
  Number_ s := digits 0 s;
  new_JsonRpcProvider url := Ok url;
  new_Wallet k p := if truthy k then Ok k else Throw (Error_ "invalid private key");
  new_Contract a abi w :=
    match a with
    | Some _ => Ok a
    | None => Throw (Error_ "invalid contract target")
    end;
  token_decimals c := rejecting "decimals" 6;
  token_transfer c t v :=
    fun w =>
      if faulty "transfer" w then (Throw (Error_ "transfer reverted"), w)
      else (Ok "0xcashback", {| faults := faults w; ledger := (t, v) :: ledger w |});
  parseUnits s d :=
    match digits 0 s with
    | Some n => Ok (n * 10 ^ d)
    | None => Throw (Error_ "invalid FixedNumber string value")
    end;
  tx_hash tx := tx;
  tx_wait tx := rejecting "wait" tt
|}.

Definition requirements (net : string) : PaymentRequirements :=
  {| scheme := "exact"; network := net; maxAmountRequired := "10000";
     asset := "0x036CbD53842c5426634e7929541eC2318f3dCF7e";
     payTo := "0x209693Bc6afc0C5328bA36FaF03C514EF312287C" |}.

Definition evm_payload (net payer : string) : PaymentPayload :=
  {| x402Version := 1; payload_scheme := "exact"; payload_network := net;
     payload :=
       ExactEvmPayload "0xsig"
         {| from := payer;
            to := "0x209693Bc6afc0C5328bA36FaF03C514EF312287C";
            value := "10000" |} |}.

Definition svm_payload (net : string) : PaymentPayload :=
  {| x402Version := 1; payload_scheme := "exact"; payload_network := net;
     payload := ExactSvmPayload "AQAAAA==" |}.

Definition request (r : PaymentRequirements) (p : PaymentPayload) : Request :=
  {| body_paymentPayload := JPayload p; body_paymentRequirements := JRequirements r |}.

Definition alice : string := "0x857b06519E91e3A54538791bDbb0E22373e36b66".

Definition evm_request : Request :=
  request (requirements "base-sepolia") (evm_payload "base-sepolia" alice).

Definition svm_request : Request :=
  request (requirements "solana-devnet") (svm_payload "solana-devnet").

Definition bad_network_request : Request :=
  request (requirements "mainnet") (evm_payload "mainnet" alice).

(** Both keys and the cashback token configured, percent left unset. *)
Definition env_both : gmap string string :=
  {[ "EVM_PRIVATE_KEY" := "0xkey"; "SVM_PRIVATE_KEY" := "svmkey";
     "EVM_CASHBACK_TOKEN" := "0xtoken" ]}.

(** Only the SVM key configured: the process starts, the EVM key is empty. *)
Definition env_svm_only : gmap string string :=
  {[ "SVM_PRIVATE_KEY" := "svmkey" ]}.

Definition calm : world := {| faults := []; ledger := [] |}.
Definition failing (fs : list string) : world := {| faults := fs; ledger := [] |}.

End Stub.

(** * Properties *)

Section Properties.
Context {H : Handles} {L : Library}.

Ltac unfold_monad :=
  unfold mbind, M_bind, mret, M_ret, bind, try_catch, ret, throw, lift,
    construct, await, console in *.

(** One step of symbolic execution: take a [match] of the goal whose
    scrutinee has no [match] inside, and resolve it from a hypothesis or
    by cases. *)
Ltac step :=
  match goal with
  | |- context [match ?x with _ => _ end] =>
      lazymatch x with
      | context [match _ with _ => _ end] => fail
      | _ => idtac
      end;
      first [ match goal with Heq : x = _ |- _ => rewrite Heq end
            | destruct x eqn:? ]
  end;
  cbn beta iota delta [response_of world_of trace_of fst snd app outcome] in *.

Ltac run := repeat step.

Lemma settled_before_cashback_mono (tr : list event) :
  settled_before_cashback false tr = true ->
  settled_before_cashback true tr = true.
Proof.
  induction tr as [|e tr IH]; cbn; [done|].
  destruct (is_cashback_event e); cbn; [done|].
  destruct (settle_returned e); cbn; auto.
Qed.

Lemma settled_before_cashback_sound (tr : list event) :
  settled_before_cashback false tr = true ->
  forall pre e post,
    tr = pre ++ e :: post -> is_cashback_event e = true ->
    exists s, s ∈ pre /\ settle_returned s = true.
Proof.
  induction tr as [|x tr IH]; intros Hscan pre e post Heq He.
  - by destruct pre.
  - destruct pre as [|y pre]; simplify_eq/=.
    + by rewrite He in Hscan.
    + destruct (is_cashback_event y) eqn:Hy; [done|].
      destruct (settle_returned y) eqn:Hs; cbn in Hscan.
      * exists y. split; [left | done].
      * destruct (IH Hscan pre e post eq_refl He) as (s & Hin & Hret).
        exists s. split; [by right | done].
Qed.

(** C1. In [POST /settle], whatever the request, the environment and the
    behaviour of the libraries: every event of the cashback transfer (the
    entry of [sendEvmCashback] and each of its calls) comes after the event
    of [settle] having returned; and when [settle] threw, the trace has no
    cashback event at all. *)
Theorem settle_cashback_after_settlement
    (env : gmap string string) (req : Request) (w : World) :
  let tr := trace_of (post_settle env req w) in
  (forall pre e post,
      tr = pre ++ e :: post -> is_cashback_event e = true ->
      exists s, s ∈ pre /\ settle_returned s = true) /\
  ((exists e, e ∈ tr /\ settle_threw e = true) ->
   forall e, e ∈ tr -> is_cashback_event e = false).
Proof.
  cbn zeta.
  assert (Hscan :
    settled_before_cashback false (trace_of (post_settle env req w)) = true /\
    (existsb settle_threw (trace_of (post_settle env req w)) = true ->
     existsb is_cashback_event (trace_of (post_settle env req w)) = false)).
  { unfold post_settle, send_cashback, sendEvmCashback. unfold_monad.
    run. all: split; cbn. all: done. }
  destruct Hscan as [Hscan Hthrew]. split.
  - by apply settled_before_cashback_sound.
  - intros (e & Hin & He) e' Hin'.
    destruct (is_cashback_event e') eqn:He'; [|done].
    rewrite <- Hthrew.
    + symmetry. apply existsb_exists. exists e'. by rewrite <- list_elem_of_In.
    + apply existsb_exists. exists e. by rewrite <- list_elem_of_In.
Qed.

(** *** The cashback step *)

Lemma sendEvmCashback_events (env : gmap string string) (a : string)
    (tok : option string) (amt : Z) (w : World) :
  exists t,
    trace_of (sendEvmCashback env a tok amt w) = Log (LogSendCalled a tok amt) :: t /\
    forallb is_cashback_event t = true.
Proof.
  unfold sendEvmCashback. unfold_monad. run; eexists; split; reflexivity.
Qed.

(** When the gate is closed nothing is sent and [cashbackTxHash] stays null. *)
Lemma send_cashback_skipped (env : gmap string string) (payer : option string)
    (net : string) (w : World) :
  payer_truthy payer && (0 <? cashbackAmount) &&
    includes SupportedEVMNetworks net = false ->
  exists t,
    send_cashback env payer net w = (Ok None, w, t) /\
    existsb is_cashback_event t = false.
Proof.
  unfold send_cashback, payer_truthy. unfold_monad. intros Hgate.
  destruct payer as [a|]; [|by eexists].
  destruct (truthy a), (0 <? cashbackAmount),
    (includes SupportedEVMNetworks net); simplify_eq/=; try by eexists.
  destruct (includes SupportedSVMNetworks net); by eexists.
Qed.

(** When it is open, the step is [sendEvmCashback] on the payer. *)
Lemma send_cashback_sent (env : gmap string string) (a : string)
    (net : string) (w : World) :
  truthy a = true -> includes SupportedEVMNetworks net = true ->
  send_cashback env (Some a) net w =
    let '(r, w', t) :=
      sendEvmCashback env a (env !! "EVM_CASHBACK_TOKEN") cashbackAmount w in
    (match r with Ok h => Ok (Some h) | Throw e => Throw e end, w', t).
Proof.
  intros Ha Hnet. unfold send_cashback. rewrite Ha, Hnet. unfold_monad. cbn.
  destruct (sendEvmCashback _ _ _ _ _) as [[[h|e] w'] t]; cbn;
    by rewrite ?app_nil_r.
Qed.

(** [POST /settle] from the point where [settle] has returned. *)
Lemma post_settle_settled (env : gmap string string) (req : Request) (w : World)
    r p s w1 st w2 :
  PaymentRequirementsSchema_parse (body_paymentRequirements req) = Ok r ->
  PaymentPayloadSchema_parse (body_paymentPayload req) = Ok p ->
  includes SupportedEVMNetworks (network r) ||
    includes SupportedSVMNetworks (network r) = true ->
  createSigner (network r) (settle_key env (network r)) w = (Ok s, w1) ->
  settle s p r (x402Config env) w1 = (Ok st, w2) ->
  post_settle env req w =
    let '(rc, w3, t3) := send_cashback env (payer_of p) (network r) w2 in
    (Ok match rc with
        | Ok h =>
            json (BSettle true st
                    {| amount := cashbackAmount; txHash := h;
                       percent := Number_ (or_else (env !! "CASHBACK_PERCENT") "2") |})
        | Throw e => status_json 400 (BError (String_ e))
        end,
     w3,
     [ Invoke (CcreateSigner (network r) (settle_key env (network r)));
       Returned (CcreateSigner (network r) (settle_key env (network r)));
       Invoke (Csettle s p r (x402Config env));
       Returned (Csettle s p r (x402Config env));
       Log (LogSettlementComplete st);
       Log (LogCashbackEligible cashbackAmount
              (Number_ (or_else (env !! "CASHBACK_PERCENT") "2"))) ]
     ++ t3 ++
     match rc with Ok _ => [] | Throw e => [Log (LogSettleError e)] end).
Proof.
  intros Hr Hp Hnet Hs Hst. unfold post_settle, settle_key in *. unfold_monad.
  rewrite Hr, Hp.
  destruct (includes SupportedEVMNetworks (network r)) eqn:Hevm.
  - rewrite Hs, Hst.
    destruct (send_cashback _ _ _ _) as [[[h|e] w3] t3]; cbn;
      by rewrite ?app_nil_r.
  - cbn in Hnet. rewrite Hnet, Hs, Hst.
    destruct (send_cashback _ _ _ _) as [[[h|e] w3] t3]; cbn;
      by rewrite ?app_nil_r.
Qed.

(** C2. In [POST /settle], when [settle] has returned a receipt and the
    cashback transfer [sendEvmCashback] then throws [e], the answer is
    HTTP 400 with body [{error: String(e)}]: the receipt is not part of the
    response. *)
Theorem settle_cashback_failure_answers_400
    (env : gmap string string) (req : Request) (w : World)
    r p s w1 st w2 a e w3 t3 :
  PaymentRequirementsSchema_parse (body_paymentRequirements req) = Ok r ->
  PaymentPayloadSchema_parse (body_paymentPayload req) = Ok p ->
  includes SupportedEVMNetworks (network r) = true ->
  createSigner (network r) (EVM_PRIVATE_KEY env) w = (Ok s, w1) ->
  settle s p r (x402Config env) w1 = (Ok st, w2) ->
  payer_of p = Some a -> truthy a = true ->
  sendEvmCashback env a (env !! "EVM_CASHBACK_TOKEN") cashbackAmount w2
    = (Throw e, w3, t3) ->
  response_of (post_settle env req w)
    = Ok {| status := 400; body := BError (String_ e) |} /\
  (forall resp, response_of (post_settle env req w) = Ok resp ->
     forall ok st' c, body resp <> BSettle ok st' c) /\
  Returned (Csettle s p r (x402Config env)) ∈ trace_of (post_settle env req w).
Proof.
  intros Hr Hp Hevm Hs Hst Hpayer Ha Hcb.
  rewrite (post_settle_settled env req w r p s w1 st w2); try done.
  - rewrite Hpayer, send_cashback_sent, Hcb by done. cbn.
    split; [done|]. split.
    + intros resp [= <-]. done.
    + set_solver.
  - by rewrite Hevm.
  - unfold settle_key. by rewrite Hevm.
Qed.

(** The cashback is attempted exactly when the gate of step 3 is open. *)
Lemma post_settle_attempt_iff (env : gmap string string) (req : Request)
    (w : World) r p s w1 st w2 :
  PaymentRequirementsSchema_parse (body_paymentRequirements req) = Ok r ->
  PaymentPayloadSchema_parse (body_paymentPayload req) = Ok p ->
  includes SupportedEVMNetworks (network r) ||
    includes SupportedSVMNetworks (network r) = true ->
  createSigner (network r) (settle_key env (network r)) w = (Ok s, w1) ->
  settle s p r (x402Config env) w1 = (Ok st, w2) ->
  (exists e, e ∈ trace_of (post_settle env req w) /\ is_cashback_event e = true)
  <-> payer_truthy (payer_of p) && (0 <? cashbackAmount) &&
        includes SupportedEVMNetworks (network r) = true.
Proof.
  intros Hr Hp Hnet Hs Hst.
  rewrite (post_settle_settled env req w r p s w1 st w2) by done.
  destruct (payer_truthy (payer_of p) && (0 <? cashbackAmount) &&
            includes SupportedEVMNetworks (network r)) eqn:Hgate.
  - apply andb_prop in Hgate as [Hgate Hevm].
    apply andb_prop in Hgate as [Hpayer _].
    destruct (payer_of p) as [a|]; [|done]. cbn in Hpayer.
    rewrite send_cashback_sent by done.
    destruct (sendEvmCashback_events env a (env !! "EVM_CASHBACK_TOKEN")
                cashbackAmount w2) as (t & Ht & _).
    destruct (sendEvmCashback _ _ _ _ _) as [[rc w3] t3]. cbn in Ht. subst t3.
    split; [done|]. intros _.
    exists (Log (LogSendCalled a (env !! "EVM_CASHBACK_TOKEN") cashbackAmount)).
    split; [|reflexivity].
    cbn. rewrite !elem_of_cons. naive_solver.
  - destruct (send_cashback_skipped env (payer_of p) (network r) w2 Hgate)
      as (t & -> & Ht).
    split; [|done]. intros (e & Hin & He). cbn in Hin.
    rewrite app_nil_r in Hin.
    assert (existsb is_cashback_event t = true); [|congruence].
    apply existsb_exists. exists e. split; [|done].
    apply list_elem_of_In.
    repeat (apply elem_of_cons in Hin as [->|Hin]; [done|]). done.
Qed.

Lemma post_settle_not_attempted (env : gmap string string) (req : Request)
    (w : World) r p s w1 st w2 :
  PaymentRequirementsSchema_parse (body_paymentRequirements req) = Ok r ->
  PaymentPayloadSchema_parse (body_paymentPayload req) = Ok p ->
  includes SupportedEVMNetworks (network r) ||
    includes SupportedSVMNetworks (network r) = true ->
  createSigner (network r) (settle_key env (network r)) w = (Ok s, w1) ->
  settle s p r (x402Config env) w1 = (Ok st, w2) ->
  payer_truthy (payer_of p) && (0 <? cashbackAmount) &&
    includes SupportedEVMNetworks (network r) = false ->
  response_of (post_settle env req w) =
    Ok (json (BSettle true st
                {| amount := cashbackAmount; txHash := None;
                   percent := Number_ (or_else (env !! "CASHBACK_PERCENT") "2") |})).
Proof.
  intros Hr Hp Hnet Hs Hst Hgate.
  rewrite (post_settle_settled env req w r p s w1 st w2) by done.
  by destruct (send_cashback_skipped env (payer_of p) (network r) w2 Hgate)
    as (t & -> & _).
Qed.

Lemma gate_spec (env : gmap string string) (p : PaymentPayload) (net : string) :
  payer_truthy (payer_of p) && (0 <? cashbackAmount) &&
    includes SupportedEVMNetworks net = true
  <-> payer_truthy (payer_of p) = true /\ 0 < cashbackAmount /\
      includes SupportedEVMNetworks net = true.
Proof.
  rewrite !andb_true_iff, Z.ltb_lt. tauto.
Qed.

(** C3. In [POST /settle], once [settle] has returned (the cashback step is
    reached), a transfer is attempted if and only if a payer was extracted
    (a truthy [authorization.from]), the cashback amount is positive and the
    network is an EVM network.  Otherwise nothing is attempted and the
    response has [cashback.txHash = null]; this is the case when the scheme
    payload has no [authorization] and when the network is an SVM one.  For
    payloads whose [authorization.from] is never the empty string, "a payer
    was extracted" is the same as "the payload has an [authorization]". *)
Theorem settle_cashback_gate
    (env : gmap string string) (req : Request) (w : World) r p s w1 st w2 :
  PaymentRequirementsSchema_parse (body_paymentRequirements req) = Ok r ->
  PaymentPayloadSchema_parse (body_paymentPayload req) = Ok p ->
  includes SupportedEVMNetworks (network r) ||
    includes SupportedSVMNetworks (network r) = true ->
  createSigner (network r) (settle_key env (network r)) w = (Ok s, w1) ->
  settle s p r (x402Config env) w1 = (Ok st, w2) ->
  let out := post_settle env req w in
  let attempted :=
    exists e, e ∈ trace_of out /\ is_cashback_event e = true in
  let no_hash :=
    Ok (json (BSettle true st
                {| amount := cashbackAmount; txHash := None;
                   percent := Number_ (or_else (env !! "CASHBACK_PERCENT") "2") |})) in
  (attempted <->
     payer_truthy (payer_of p) = true /\ 0 < cashbackAmount /\
     includes SupportedEVMNetworks (network r) = true) /\
  (~ attempted -> response_of out = no_hash) /\
  (has_authorization p = false -> ~ attempted /\ response_of out = no_hash) /\
  (families_disjoint -> includes SupportedSVMNetworks (network r) = true ->
     ~ attempted /\ response_of out = no_hash) /\
  ((forall sig auth, payload p = ExactEvmPayload sig auth -> from auth <> "") ->
     (attempted <->
        has_authorization p = true /\ 0 < cashbackAmount /\
        includes SupportedEVMNetworks (network r) = true)).
Proof.
  intros Hr Hp Hnet Hs Hst out attempted no_hash.
  pose proof (post_settle_attempt_iff env req w r p s w1 st w2 Hr Hp Hnet Hs Hst)
    as Hiff.
  fold out in Hiff. fold attempted in Hiff.
  assert (Hskip : ~ attempted -> response_of out = no_hash).
  { intros Hno.
    apply (post_settle_not_attempted env req w r p s w1 st w2); try done.
    apply not_true_is_false. intros Hgate. by apply Hno, Hiff. }
  split; [by rewrite Hiff, (gate_spec env)|].
  split; [done|].
  split; [|split].
  - intros Hauth.
    assert (~ attempted) as Hno; [|by split; [|apply Hskip]].
    rewrite Hiff. unfold payer_of, has_authorization in *.
    by destruct (payload p).
  - intros Hdisj Hsvm.
    assert (~ attempted) as Hno; [|by split; [|apply Hskip]].
    rewrite Hiff, (gate_spec env). intros (_ & _ & Hevm).
    apply Hdisj in Hevm. congruence.
  - intros Hfrom. rewrite Hiff, (gate_spec env).
    unfold payer_of, has_authorization, payer_truthy, truthy.
    destruct (payload p) as [sig auth|]; [|intuition discriminate].
    specialize (Hfrom sig auth eq_refl).
    destruct (String.eqb_spec (from auth) ""); [done|]. cbn. tauto.
Qed.

(** C4. Every successful [POST /settle] response reports
    [cashback.amount = 1], whatever the environment and the request, and
    [cashback.percent = Number(CASHBACK_PERCENT || "2")], which is
    [Number("2")] when the variable is unset; the amount handed to
    [sendEvmCashback] is that same constant. *)
Theorem settle_cashback_amount_is_constant
    (env : gmap string string) (req : Request) (w : World) (resp : Response) :
  response_of (post_settle env req w) = Ok resp ->
  status resp = 200 ->
  (exists st c,
     body resp = BSettle true st c /\
     amount c = 1 /\
     percent c = Number_ (or_else (env !! "CASHBACK_PERCENT") "2") /\
     (env !! "CASHBACK_PERCENT" = None -> percent c = Number_ "2")) /\
  (forall a tok amt,
     Log (LogSendCalled a tok amt) ∈ trace_of (post_settle env req w) ->
     amt = 1).
Proof.
  unfold post_settle, send_cashback, sendEvmCashback. unfold_monad.
  run; intros [= <-] Hstatus; try discriminate Hstatus.
  all: split;
    [ eexists _, _; repeat split; try reflexivity; by intros ->
    | intros a' tok amt Hin;
      repeat (apply elem_of_cons in Hin as [Heq|Hin]; [by simplify_eq|]);
      by apply elem_of_nil in Hin ].
Qed.

(** *** Which client [POST /verify] builds *)

(** C5. In [POST /verify] on a validated request: for an EVM network the
    only construction is [createConnectedClient] and the client handed to
    [verify] is the connected client it returned; for an SVM network the only
    construction is [createSigner] and the client handed to [verify] is the
    signer it returned.  Either way exactly one of the two is built, and
    [verify] is called with it as soon as it is built. *)
Theorem verify_client_follows_network
    (env : gmap string string) (req : Request) (w : World) r p :
  PaymentRequirementsSchema_parse (body_paymentRequirements req) = Ok r ->
  PaymentPayloadSchema_parse (body_paymentPayload req) = Ok p ->
  let tr := trace_of (post_verify env req w) in
  (includes SupportedEVMNetworks (network r) = true ->
     List.filter is_construction tr
       = [Invoke (CcreateConnectedClient (network r))] /\
     (forall c p' r' cfg, Invoke (Cverify c p' r' cfg) ∈ tr ->
        exists cc, createConnectedClient (network r) = Ok cc /\
                   c = ClientConnected cc) /\
     (forall cc, createConnectedClient (network r) = Ok cc ->
        Invoke (Cverify (ClientConnected cc) p r (x402Config env)) ∈ tr)) /\
  (families_disjoint -> includes SupportedSVMNetworks (network r) = true ->
     List.filter is_construction tr
       = [Invoke (CcreateSigner (network r) (SVM_PRIVATE_KEY env))] /\
     (forall c p' r' cfg, Invoke (Cverify c p' r' cfg) ∈ tr ->
        exists s w1,
          createSigner (network r) (SVM_PRIVATE_KEY env) w = (Ok s, w1) /\
          c = ClientSigner s) /\
     (forall s w1,
        createSigner (network r) (SVM_PRIVATE_KEY env) w = (Ok s, w1) ->
        Invoke (Cverify (ClientSigner s) p r (x402Config env)) ∈ tr)).
Proof.
  intros Hr Hp tr. subst tr. split.
  - intros Hevm. unfold post_verify. unfold_monad. rewrite Hr, Hp, Hevm.
    run; (split; [reflexivity|]); split.
    all: try (intros c p' r' cfg Hin;
              repeat (apply elem_of_cons in Hin as [Heq|Hin];
                      [by simplify_eq; eauto|]);
              by apply elem_of_nil in Hin).
    all: intros cc [= <-]; rewrite !elem_of_cons; auto.
  - intros Hdisj Hsvm. unfold post_verify. unfold_monad. rewrite Hr, Hp.
    destruct (includes SupportedEVMNetworks (network r)) eqn:Hevm;
      [apply Hdisj in Hevm; congruence|].
    rewrite Hsvm.
    run; (split; [reflexivity|]); split.
    all: try (intros c p' r' cfg Hin;
              repeat (apply elem_of_cons in Hin as [Heq|Hin];
                      [by simplify_eq; eauto|]);
              by apply elem_of_nil in Hin).
    all: intros s' w1' [= <- <-]; rewrite !elem_of_cons; auto.
Qed.

(** C6. When the validated [paymentRequirements.network] is in neither
    allow-list, [POST /verify] and [POST /settle] both answer HTTP 400 and
    their traces contain no library call at all: no client and no signer is
    constructed. *)
Theorem unsupported_network_answers_400
    (env : gmap string string) (req : Request) (w : World) r :
  PaymentRequirementsSchema_parse (body_paymentRequirements req) = Ok r ->
  includes SupportedEVMNetworks (network r) = false ->
  includes SupportedSVMNetworks (network r) = false ->
  (response_of (post_verify env req w)
     = Ok {| status := 400; body := BError "Invalid request" |} /\
   forall e, e ∈ trace_of (post_verify env req w) ->
     is_invoke e = false /\ is_construction e = false) /\
  ((exists resp, response_of (post_settle env req w) = Ok resp /\
                 status resp = 400) /\
   (forall p, PaymentPayloadSchema_parse (body_paymentPayload req) = Ok p ->
      response_of (post_settle env req w)
        = Ok {| status := 400; body := BError "Error: Invalid network" |}) /\
   forall e, e ∈ trace_of (post_settle env req w) ->
     is_invoke e = false /\ is_construction e = false).
Proof.
  intros Hr Hevm Hsvm. split.
  - unfold post_verify. unfold_monad. rewrite Hr, Hevm, Hsvm.
    run; (split; [reflexivity|]).
    all: intros ev Hin; apply list_elem_of_singleton in Hin as ->; done.
  - unfold post_settle. unfold_monad. rewrite Hr, Hevm, Hsvm.
    run; (split; [by eexists|]); (split; [by intros ? [= <-]|]).
    all: intros ev Hin; apply list_elem_of_singleton in Hin as ->; done.
Qed.

(** *** The decimals fallback *)

(** C7. In [sendEvmCashback], when the token contract was bound and its
    [decimals()] lookup rejects, the function goes on: it scales the amount
    with 18 decimals, [parseUnits(amount.toString(), 18)], logs that value and
    submits [transfer(to, value)]; if the transfer and its confirmation go
    through, it returns the transaction hash. *)
Theorem decimals_failure_falls_back_to_18
    (env : gmap string string) (a : string) (tok : option string) (amt : Z)
    (w : World) provider wallet token e w1 v :
  new_JsonRpcProvider (EVM_RPC_URL env) = Ok provider ->
  new_Wallet (EVM_PRIVATE_KEY env) provider = Ok wallet ->
  new_Contract tok ERC20_ABI wallet = Ok token ->
  token_decimals token w = (Throw e, w1) ->
  parseUnits (toString amt) 18 = Ok v ->
  let out := sendEvmCashback env a tok amt w in
  (exists rest,
     trace_of out =
       [ Log (LogSendCalled a tok amt);
         Invoke (CnewJsonRpcProvider (EVM_RPC_URL env));
         Returned (CnewJsonRpcProvider (EVM_RPC_URL env));
         Invoke (CnewWallet (EVM_PRIVATE_KEY env));
         Returned (CnewWallet (EVM_PRIVATE_KEY env));
         Invoke (CnewContract tok); Returned (CnewContract tok);
         Invoke Cdecimals; Threw Cdecimals e;
         Log (LogDecimalAmount v);
         Invoke (Ctransfer a v) ] ++ rest) /\
  (forall tx w2 w3,
     token_transfer token a v w1 = (Ok tx, w2) ->
     tx_wait tx w2 = (Ok tt, w3) ->
     response_of out = Ok (tx_hash tx) /\ world_of out = w3).
Proof.
  intros Hprov Hwal Htok Hdec Hpu out. subst out.
  unfold sendEvmCashback. unfold_monad. rewrite Hprov, Hwal, Htok, Hdec.
  cbn. rewrite Hpu. split.
  - run; eexists; reflexivity.
  - intros tx w2 w3 Htx Hwait. rewrite Htx, Hwait. done.
Qed.

(** *** Empty private keys *)

(** C8. Provided [createSigner] rejects an empty private key, a
    [POST /settle] request whose network resolves to a family whose key is
    unset or empty fails: [createSigner] is called with the empty key, the
    error it throws is answered as HTTP 400 [{error: String(e)}], and
    [settle] is never called. *)
Theorem settle_empty_key_fails
    (env : gmap string string) (req : Request) (w : World) r p :
  createSigner_rejects_empty_key ->
  PaymentRequirementsSchema_parse (body_paymentRequirements req) = Ok r ->
  PaymentPayloadSchema_parse (body_paymentPayload req) = Ok p ->
  let failed :=
    exists e w1,
      createSigner (network r) "" w = (Throw e, w1) /\
      post_settle env req w =
        (Ok {| status := 400; body := BError (String_ e) |}, w1,
         [ Invoke (CcreateSigner (network r) "");
           Threw (CcreateSigner (network r) "") e;
           Log (LogSettleError e) ]) in
  (includes SupportedEVMNetworks (network r) = true ->
   env !! "EVM_PRIVATE_KEY" = None \/ env !! "EVM_PRIVATE_KEY" = Some "" ->
   failed) /\
  (includes SupportedEVMNetworks (network r) = false ->
   includes SupportedSVMNetworks (network r) = true ->
   env !! "SVM_PRIVATE_KEY" = None \/ env !! "SVM_PRIVATE_KEY" = Some "" ->
   failed).
Proof.
  intros Hlib Hr Hp failed. subst failed. split.
  - intros Hevm Hkey.
    assert (EVM_PRIVATE_KEY env = "") as Hk
      by (unfold EVM_PRIVATE_KEY; by destruct Hkey as [-> | ->]).
    destruct (Hlib (network r) w) as (e & w1 & He). exists e, w1.
    split; [done|]. unfold post_settle. unfold_monad.
    by rewrite Hr, Hp, Hevm, Hk, He.
  - intros Hevm Hsvm Hkey.
    assert (SVM_PRIVATE_KEY env = "") as Hk
      by (unfold SVM_PRIVATE_KEY; by destruct Hkey as [-> | ->]).
    destruct (Hlib (network r) w) as (e & w1 & He). exists e, w1.
    split; [done|]. unfold post_settle. unfold_monad.
    by rewrite Hr, Hp, Hevm, Hsvm, Hk, He.
Qed.

(** *** The receipt is not inspected *)

(** C9, as amended.  In [POST /settle], for every receipt [st] that
    [settle] returns, whatever its [success] flag: the cashback is attempted
    exactly when the payer/amount/network gate is open; if the cashback step
    completes, the response is [{success: true, settlement: st, cashback}];
    if it throws, the response is the HTTP 400 of the error boundary. *)
Theorem settle_does_not_inspect_receipt
    (env : gmap string string) (req : Request) (w : World) r p s w1 st w2 :
  PaymentRequirementsSchema_parse (body_paymentRequirements req) = Ok r ->
  PaymentPayloadSchema_parse (body_paymentPayload req) = Ok p ->
  includes SupportedEVMNetworks (network r) ||
    includes SupportedSVMNetworks (network r) = true ->
  createSigner (network r) (settle_key env (network r)) w = (Ok s, w1) ->
  settle s p r (x402Config env) w1 = (Ok st, w2) ->
  let out := post_settle env req w in
  ((exists e, e ∈ trace_of out /\ is_cashback_event e = true) <->
     payer_truthy (payer_of p) = true /\ 0 < cashbackAmount /\
     includes SupportedEVMNetworks (network r) = true) /\
  (forall h w3 t3,
     send_cashback env (payer_of p) (network r) w2 = (Ok h, w3, t3) ->
     response_of out =
       Ok {| status := 200;
             body := BSettle true st
                       {| amount := cashbackAmount; txHash := h;
                          percent :=
                            Number_ (or_else (env !! "CASHBACK_PERCENT") "2") |} |}) /\
  (forall e w3 t3,
     send_cashback env (payer_of p) (network r) w2 = (Throw e, w3, t3) ->
     response_of out = Ok {| status := 400; body := BError (String_ e) |}).
Proof.
  intros Hr Hp Hnet Hs Hst out. subst out. split; [|split].
  - rewrite <- (gate_spec env).
    by apply (post_settle_attempt_iff env req w r p s w1 st w2).
  - intros h w3 t3 Hcb.
    by rewrite (post_settle_settled env req w r p s w1 st w2), Hcb.
  - intros e w3 t3 Hcb.
    by rewrite (post_settle_settled env req w r p s w1 st w2), Hcb.
Qed.

(** *** [GET /supported] *)

(** C10. [GET /supported] has no error boundary.  With [SVM_PRIVATE_KEY]
    configured, each call makes exactly one construction,
    [createSigner("solana-devnet", SVM_PRIVATE_KEY)]; the signer is used only
    for the [feePayer] of the answer; and when the construction throws, the
    exception leaves the handler: no response is produced.  [POST /verify]
    and [POST /settle], by contrast, always produce a response. *)
Theorem supported_has_no_error_boundary (env : gmap string string) (w : World) :
  truthy (SVM_PRIVATE_KEY env) = true ->
  let out := get_supported env w in
  List.filter is_construction (trace_of out)
    = [Invoke (CcreateSigner "solana-devnet" (SVM_PRIVATE_KEY env))] /\
  (forall e w1,
     createSigner "solana-devnet" (SVM_PRIVATE_KEY env) w = (Throw e, w1) ->
     response_of out = Throw e /\
     forall resp, response_of out <> Ok resp) /\
  (forall s w1,
     createSigner "solana-devnet" (SVM_PRIVATE_KEY env) w = (Ok s, w1) ->
     response_of out =
       Ok (json (BSupported
         ((if truthy (EVM_PRIVATE_KEY env)
           then [ {| kind_x402Version := 1; kind_scheme := "exact";
                     kind_network := "base-sepolia"; extra := None |} ]
           else []) ++
          [ {| kind_x402Version := 1; kind_scheme := "exact";
               kind_network := "solana-devnet";
               extra := Some {| feePayer :=
                 if isSvmSignerWallet s then Some (signer_address s)
                 else None |} |} ])))) /\
  (forall req w', exists resp, response_of (post_verify env req w') = Ok resp) /\
  (forall req w', exists resp, response_of (post_settle env req w') = Ok resp).
Proof.
  intros Hkey out. subst out. split; [|split; [|split; [|split]]].
  - unfold get_supported. unfold_monad. rewrite Hkey. run; reflexivity.
  - intros e w1 He. unfold get_supported. unfold_monad. rewrite Hkey, He.
    by split.
  - intros s w1 Hs. unfold get_supported. unfold_monad. rewrite Hkey, Hs.
    by destruct (truthy (EVM_PRIVATE_KEY env)).
  - intros req w'. unfold post_verify. unfold_monad. run; by eexists.
  - intros req w'. unfold post_settle, send_cashback, sendEvmCashback.
    unfold_monad. run; by eexists.
Qed.

(** * Further properties of the handlers *)

(** Case analysis on the membership of an event in an explicit trace. *)
Ltac member_cases Hin :=
  repeat (apply elem_of_cons in Hin as [Hin|Hin];
          [try discriminate Hin; simplify_eq|]);
  try (by apply elem_of_nil in Hin).

(** *** [POST /verify] *)

(** X1. [POST /verify] always answers.  Either [verify] returned and the
    answer is its verdict, with nothing logged as an error; or the answer is
    HTTP 400 with the fixed body "Invalid request", the error was logged, and
    [verify] did not return. *)
Theorem verify_answers_verdict_or_invalid_request
    (env : gmap string string) (req : Request) (w : World) :
  let out := post_verify env req w in
  (exists valid c p r cfg,
      response_of out = Ok {| status := 200; body := BVerify valid |} /\
      Returned (Cverify c p r cfg) ∈ trace_of out /\
      forall e, Log (LogVerifyError e) ∉ trace_of out) \/
  (response_of out = Ok {| status := 400; body := BError "Invalid request" |} /\
   (exists e, Log (LogVerifyError e) ∈ trace_of out) /\
   forall c p r cfg, Returned (Cverify c p r cfg) ∉ trace_of out).
Proof.
  cbn zeta. unfold post_verify. unfold_monad. run.
  all: first
    [ left; eexists _, _, _, _, _; split; [reflexivity|]; split;
      [ rewrite !elem_of_cons; auto 10
      | intros e' Hin; member_cases Hin ]
    | right; split; [reflexivity|]; split;
      [ eexists; rewrite !elem_of_cons; auto 10
      | intros c' p' r' cfg' Hin; member_cases Hin ] ].
Qed.

(** X2. The verdict of [POST /verify] is the library's, on the validated
    inputs: a 200 answer carries exactly the value that [verify] returned
    when called, once, with the validated payload and requirements and the
    configured [x402Config], and the world is the one [verify] left. *)
Theorem verify_verdict_is_verbatim
    (env : gmap string string) (req : Request) (w : World) valid :
  response_of (post_verify env req w)
    = Ok {| status := 200; body := BVerify valid |} ->
  exists c p r w1,
    PaymentRequirementsSchema_parse (body_paymentRequirements req) = Ok r /\
    PaymentPayloadSchema_parse (body_paymentPayload req) = Ok p /\
    verify c p r (x402Config env) w1
      = (Ok valid, world_of (post_verify env req w)) /\
    List.filter verify_invoked (trace_of (post_verify env req w))
      = [Invoke (Cverify c p r (x402Config env))].
Proof.
  unfold post_verify. unfold_monad. run; intros [= <-].
  all: eexists _, _, _, _; repeat split; try eassumption; reflexivity.
Qed.

(** X3. [POST /verify] never moves funds and never uses the EVM key: its
    trace has no [settle] call and no cashback event, any signer it builds is
    built from [SVM_PRIVATE_KEY] for the validated network, and it builds at
    most one client or signer. *)
Theorem verify_never_settles
    (env : gmap string string) (req : Request) (w : World) :
  let tr := trace_of (post_verify env req w) in
  (forall e, e ∈ tr -> settle_invoked e = false /\ is_cashback_event e = false) /\
  (forall n k, Invoke (CcreateSigner n k) ∈ tr ->
     k = SVM_PRIVATE_KEY env /\
     exists r,
       PaymentRequirementsSchema_parse (body_paymentRequirements req) = Ok r /\
       n = network r /\ includes SupportedEVMNetworks n = false) /\
  (length (List.filter is_construction tr) <= 1)%nat.
Proof.
  cbn zeta. unfold post_verify. unfold_monad. run.
  all: split; [intros e' Hin; member_cases Hin; by split|].
  all: split;
    [intros n k Hin; member_cases Hin; (split; [done|]); by eexists|].
  all: cbn; lia.
Qed.

(** *** Requests that fail validation *)

(** X4. A body that fails schema validation has no effect on either route:
    no library call is made and the world is untouched; the only trace is
    the logged error.  [POST /verify] answers the fixed "Invalid request",
    [POST /settle] the stringified validation error; when both fields are
    invalid it is the error of the requirements. *)
Theorem invalid_body_has_no_effect
    (env : gmap string string) (req : Request) (w : World) (e : exn) :
  validation_error req e ->
  post_verify env req w =
    (Ok {| status := 400; body := BError "Invalid request" |}, w,
     [Log (LogVerifyError e)]) /\
  post_settle env req w =
    (Ok {| status := 400; body := BError (String_ e) |}, w,
     [Log (LogSettleError e)]).
Proof.
  intros [He | (r & Hr & He)];
    unfold post_verify, post_settle; unfold_monad.
  - by rewrite He.
  - by rewrite Hr, He.
Qed.

(** *** [POST /settle] *)

(** X5. [POST /settle] always answers, with 200 or with 400.  A 200 answer
    has [success: true] and carries the receipt that [settle] returned, and
    no error was logged; a 400 answer carries the string of the one error
    that was logged, and that log line is the last event of the run. *)
Theorem settle_answers_receipt_or_error
    (env : gmap string string) (req : Request) (w : World) :
  let out := post_settle env req w in
  (exists st c s p r w1 w2,
      response_of out = Ok {| status := 200; body := BSettle true st c |} /\
      settle s p r (x402Config env) w1 = (Ok st, w2) /\
      Returned (Csettle s p r (x402Config env)) ∈ trace_of out /\
      forall e, Log (LogSettleError e) ∉ trace_of out) \/
  (exists e,
      response_of out = Ok {| status := 400; body := BError (String_ e) |} /\
      last (trace_of out) = Some (Log (LogSettleError e)) /\
      forall e', Log (LogSettleError e') ∈ trace_of out -> e' = e).
Proof.
  cbn zeta. unfold post_settle, send_cashback, sendEvmCashback. unfold_monad.
  run.
  all: first
    [ left; eexists _, _, _, _, _, _, _; split; [reflexivity|];
      split; [eassumption|]; split;
      [ rewrite !elem_of_cons; auto 10
      | intros e' Hin; member_cases Hin ]
    | right; eexists; split; [reflexivity|]; split;
      [ reflexivity
      | intros e' Hin; by member_cases Hin ] ].
Qed.

(** X6. [settle] is called at most once, on what was validated: with the
    validated payload and requirements, the configured [x402Config], and the
    signer that [createSigner] returned for the requirements' network and
    the key of its family (the EVM key for an EVM network, else the SVM
    key).  At most one signer is built, with that key. *)
Theorem settle_call_arguments
    (env : gmap string string) (req : Request) (w : World) :
  let tr := trace_of (post_settle env req w) in
  (forall s p r cfg, Invoke (Csettle s p r cfg) ∈ tr ->
     PaymentRequirementsSchema_parse (body_paymentRequirements req) = Ok r /\
     PaymentPayloadSchema_parse (body_paymentPayload req) = Ok p /\
     cfg = x402Config env /\
     exists w1,
       createSigner (network r) (settle_key env (network r)) w = (Ok s, w1)) /\
  (forall n k, Invoke (CcreateSigner n k) ∈ tr ->
     k = settle_key env n /\
     exists r,
       PaymentRequirementsSchema_parse (body_paymentRequirements req) = Ok r /\
       n = network r) /\
  (length (List.filter settle_invoked tr) <= 1)%nat /\
  (length (List.filter is_construction tr) <= 1)%nat.
Proof.
  cbn zeta. unfold post_settle, send_cashback, sendEvmCashback. unfold_monad.
  run.
  all: split;
    [ intros s' p' r' cfg' Hin; member_cases Hin;
      (split; [done|]); (split; [done|]); (split; [done|]);
      eexists; unfold settle_key;
      repeat case_match; try congruence; eassumption |].
  all: split;
    [ intros n k Hin; member_cases Hin;
      (split; [unfold settle_key; repeat case_match; congruence|]);
      by eexists |].
  all: cbn; lia.
Qed.

(** X7. The cashback goes to the payer of the validated payload and to
    nobody else: every transfer submitted during [POST /settle] has as
    recipient the [authorization.from] of the validated payload, on an EVM
    network; the token contract is bound at [EVM_CASHBACK_TOKEN] as found in
    the environment (also when unset), the wallet holds [EVM_PRIVATE_KEY],
    the provider points at [EVM_RPC_URL]; and at most one transfer is
    submitted. *)
Theorem settle_cashback_goes_to_payer
    (env : gmap string string) (req : Request) (w : World) :
  let tr := trace_of (post_settle env req w) in
  (forall a v, Invoke (Ctransfer a v) ∈ tr ->
     exists r p sig auth,
       PaymentRequirementsSchema_parse (body_paymentRequirements req) = Ok r /\
       PaymentPayloadSchema_parse (body_paymentPayload req) = Ok p /\
       payload p = ExactEvmPayload sig auth /\ a = from auth /\
       includes SupportedEVMNetworks (network r) = true) /\
  (forall tok, Invoke (CnewContract tok) ∈ tr ->
     tok = env !! "EVM_CASHBACK_TOKEN") /\
  (forall k, Invoke (CnewWallet k) ∈ tr -> k = EVM_PRIVATE_KEY env) /\
  (forall u, Invoke (CnewJsonRpcProvider u) ∈ tr -> u = EVM_RPC_URL env) /\
  (length (List.filter transfer_invoked tr) <= 1)%nat.
Proof.
  cbn zeta.
  unfold post_settle, send_cashback, sendEvmCashback, payer_of. unfold_monad.
  run.
  all: split;
    [ intros a' v' Hin; member_cases Hin;
      eexists _, _, _, _; repeat split; eassumption || reflexivity |].
  all: split; [intros tok Hin; by member_cases Hin|].
  all: split; [intros k Hin; by member_cases Hin|].
  all: split; [intros u Hin; by member_cases Hin|].
  all: cbn; lia.
Qed.


(** X9. When [settle] itself throws [e], [POST /settle] answers 400 with
    the string of [e]; the world is the one [settle] left behind, and after
    the failed call nothing happens but the logging of the error. *)
Theorem settle_failure_answers_400
    (env : gmap string string) (req : Request) (w : World) r p s w1 e w2 :
  PaymentRequirementsSchema_parse (body_paymentRequirements req) = Ok r ->
  PaymentPayloadSchema_parse (body_paymentPayload req) = Ok p ->
  includes SupportedEVMNetworks (network r) ||
    includes SupportedSVMNetworks (network r) = true ->
  createSigner (network r) (settle_key env (network r)) w = (Ok s, w1) ->
  settle s p r (x402Config env) w1 = (Throw e, w2) ->
  post_settle env req w =
    (Ok {| status := 400; body := BError (String_ e) |}, w2,
     [ Invoke (CcreateSigner (network r) (settle_key env (network r)));
       Returned (CcreateSigner (network r) (settle_key env (network r)));
       Invoke (Csettle s p r (x402Config env));
       Threw (Csettle s p r (x402Config env)) e;
       Log (LogSettleError e) ]).
Proof.
  intros Hr Hp Hnet Hs Hst. unfold post_settle, settle_key in *. unfold_monad.
  rewrite Hr, Hp.
  destruct (includes SupportedEVMNetworks (network r)) eqn:Hevm.
  - by rewrite Hs, Hst.
  - cbn in Hnet. by rewrite Hnet, Hs, Hst.
Qed.

(** X10. The whole of a paid cashback: on an EVM network, with a payer, once
    [settle] has returned [st] and [sendEvmCashback] has returned the hash
    [h], the answer is [{success: true, settlement: st, cashback: {amount: 1,
    txHash: h, percent}}] and the world is the one the transfer left. *)
Theorem settle_with_cashback_answers_hash
    (env : gmap string string) (req : Request) (w : World)
    r p s w1 st w2 a h w3 t3 :
  PaymentRequirementsSchema_parse (body_paymentRequirements req) = Ok r ->
  PaymentPayloadSchema_parse (body_paymentPayload req) = Ok p ->
  includes SupportedEVMNetworks (network r) = true ->
  createSigner (network r) (EVM_PRIVATE_KEY env) w = (Ok s, w1) ->
  settle s p r (x402Config env) w1 = (Ok st, w2) ->
  payer_of p = Some a -> truthy a = true ->
  sendEvmCashback env a (env !! "EVM_CASHBACK_TOKEN") cashbackAmount w2
    = (Ok h, w3, t3) ->
  response_of (post_settle env req w) =
    Ok {| status := 200;
          body := BSettle true st
                    {| amount := 1; txHash := Some h;
                       percent :=
                         Number_ (or_else (env !! "CASHBACK_PERCENT") "2") |} |} /\
  world_of (post_settle env req w) = w3.
Proof.
  intros Hr Hp Hevm Hs Hst Hpayer Ha Hcb.
  rewrite (post_settle_settled env req w r p s w1 st w2); try done.
  - by rewrite Hpayer, send_cashback_sent, Hcb by done.
  - by rewrite Hevm.
  - unfold settle_key. by rewrite Hevm.
Qed.

(** *** [sendEvmCashback] *)

(** X11. When the [decimals()] lookup succeeds with [d], the amount is
    scaled with [d]: the transfer is submitted for
    [parseUnits(amount.toString(), d)]; and when the transfer and its
    confirmation go through, the function returns the transaction hash in
    the world left by the confirmation. *)
Theorem sendEvmCashback_scales_by_token_decimals
    (env : gmap string string) (a : string) (tok : option string) (amt : Z)
    (w : World) provider wallet token d w1 v :
  new_JsonRpcProvider (EVM_RPC_URL env) = Ok provider ->
  new_Wallet (EVM_PRIVATE_KEY env) provider = Ok wallet ->
  new_Contract tok ERC20_ABI wallet = Ok token ->
  token_decimals token w = (Ok d, w1) ->
  parseUnits (toString amt) d = Ok v ->
  let out := sendEvmCashback env a tok amt w in
  (exists rest,
     trace_of out =
       [ Log (LogSendCalled a tok amt);
         Invoke (CnewJsonRpcProvider (EVM_RPC_URL env));
         Returned (CnewJsonRpcProvider (EVM_RPC_URL env));
         Invoke (CnewWallet (EVM_PRIVATE_KEY env));
         Returned (CnewWallet (EVM_PRIVATE_KEY env));
         Invoke (CnewContract tok); Returned (CnewContract tok);
         Invoke Cdecimals; Returned Cdecimals;
         Log (LogDecimalAmount v);
         Invoke (Ctransfer a v) ] ++ rest) /\
  (forall tx w2 w3,
     token_transfer token a v w1 = (Ok tx, w2) ->
     tx_wait tx w2 = (Ok tt, w3) ->
     response_of out = Ok (tx_hash tx) /\ world_of out = w3).
Proof.
  intros Hprov Hwal Htok Hdec Hpu out. subst out.
  unfold sendEvmCashback. unfold_monad. rewrite Hprov, Hwal, Htok, Hdec.
  cbn. rewrite Hpu. split.
  - run; eexists; reflexivity.
  - intros tx w2 w3 Htx Hwait. rewrite Htx, Hwait. done.
Qed.

(** X12. [sendEvmCashback] submits at most one transfer and never retries.
    It returns a hash only after the transfer was submitted and its
    confirmation returned.  When the transfer is rejected, the confirmation
    is never awaited and the function throws.  When the run makes no call to
    the chain (a constructor or nothing at all got that far), the world is
    untouched and the function throws. *)
Theorem sendEvmCashback_protocol
    (env : gmap string string) (a : string) (tok : option string) (amt : Z)
    (w : World) :
  let out := sendEvmCashback env a tok amt w in
  let tr := trace_of out in
  (length (List.filter transfer_invoked tr) <= 1)%nat /\
  (forall h, response_of out = Ok h ->
     (exists v, Returned (Ctransfer a v) ∈ tr) /\ Returned Cwait ∈ tr /\
     last tr = Some (Log (LogSent amt a h))) /\
  (forall a' v e, Threw (Ctransfer a' v) e ∈ tr ->
     response_of out = Throw e /\ Invoke Cwait ∉ tr) /\
  ((forall e, e ∈ tr -> is_chain_call e = false) ->
     world_of out = w /\ exists e, response_of out = Throw e).
Proof.
  cbn zeta. unfold sendEvmCashback. unfold_monad. run.
  all: split; [cbn; lia|].
  all: split;
    [ intros h' [= <-]; (split; [eexists; rewrite !elem_of_cons; auto 20|]);
      (split; [rewrite !elem_of_cons; auto 20 | reflexivity]) |].
  all: split;
    [ intros a' v' e' Hin; member_cases Hin;
      (split; [reflexivity|]); intros Hin'; member_cases Hin' |].
  all: intros Hnone; first
    [ by (split; [reflexivity | eexists])
    | exfalso;
      first [ specialize (Hnone (Invoke Cdecimals)) ];
      assert (is_chain_call (Invoke Cdecimals) = false) as Habs
        by (apply Hnone; rewrite !elem_of_cons; auto 20);
      discriminate Habs ].
Qed.

(** *** [GET /supported] *)

(** X13. When [GET /supported] answers, the kinds follow the configured
    keys: a [base-sepolia] kind is listed exactly when [EVM_PRIVATE_KEY] is
    set, a [solana-devnet] kind exactly when [SVM_PRIVATE_KEY] is set; every
    kind is version 1 of the "exact" scheme; the list is empty only under a
    configuration with which the process exits at start-up.  Without an SVM
    key the handler makes no library call and leaves the world untouched. *)
Theorem supported_kinds_follow_keys
    (env : gmap string string) (w : World) (resp : Response) :
  response_of (get_supported env w) = Ok resp ->
  exists kinds,
    resp = {| status := 200; body := BSupported kinds |} /\
    ((exists k, k ∈ kinds /\ kind_network k = "base-sepolia")
       <-> truthy (EVM_PRIVATE_KEY env) = true) /\
    ((exists k, k ∈ kinds /\ kind_network k = "solana-devnet")
       <-> truthy (SVM_PRIVATE_KEY env) = true) /\
    (forall k, k ∈ kinds -> kind_x402Version k = 1 /\ kind_scheme k = "exact") /\
    (kinds = [] <-> exits_at_startup env = true) /\
    (truthy (SVM_PRIVATE_KEY env) = false ->
       trace_of (get_supported env w) = [] /\
       world_of (get_supported env w) = w).
Proof.
  unfold get_supported, exits_at_startup. unfold_monad.
  destruct (truthy (EVM_PRIVATE_KEY env)) eqn:Hevm,
           (truthy (SVM_PRIVATE_KEY env)) eqn:Hsvm; cbn.
  all: run; intros [= <-]; eexists; (split; [reflexivity|]).
  all: split; [|split; [|split; [|split; [|done]]]].
  all: try (split; [done|intros [=]]).
  all: try (split; [intros (k & Hin & Hk); by member_cases Hin | done]).
  all: try (intros k Hin; by member_cases Hin).
  all: first
    [ reflexivity
    | by (eexists; split; [apply list_elem_of_here|])
    | by (eexists; split; [apply list_elem_of_further, list_elem_of_here|]) ].
Qed.

(** *** Configuration *)

Lemma truthy_false (s : string) : truthy s = false <-> s = "".
Proof.
  unfold truthy. destruct (String.eqb_spec s ""); cbn; split; congruence.
Qed.

Lemma or_else_empty_falsy (v : option string) :
  truthy (or_else v "") = false <-> v = None \/ v = Some "".
Proof.
  destruct v as [s|]; cbn; [|by intuition].
  destruct (truthy s) eqn:Hs.
  - rewrite Hs. split; [done|]. intros [[=] | [= ->]]. done.
  - apply truthy_false in Hs as ->. by intuition.
Qed.

Lemma or_else_empty_truthy (v : option string) :
  truthy (or_else v "") = true -> v = Some (or_else v "") /\ or_else v "" <> "".
Proof.
  destruct v as [s|]; cbn; [|done].
  destruct (truthy s) eqn:Hs; [|done]. intros _. split; [done|].
  intros ->. done.
Qed.

(** X14. A key set to the empty string counts as missing: the process
    exits at start-up exactly when each of the two private keys is unset or
    empty; and no [x402Config] is passed to the library exactly when
    [SVM_RPC_URL] is unset or empty, else the one holding that URL. *)
Theorem empty_variable_counts_as_missing (env : gmap string string) :
  (exits_at_startup env = true <->
     unset_or_empty env "EVM_PRIVATE_KEY" /\ unset_or_empty env "SVM_PRIVATE_KEY") /\
  (x402Config env = None <-> unset_or_empty env "SVM_RPC_URL") /\
  (forall cfg, x402Config env = Some cfg ->
     env !! "SVM_RPC_URL" = Some (rpcUrl (svmConfig cfg)) /\
     rpcUrl (svmConfig cfg) <> "").
Proof.
  unfold exits_at_startup, x402Config, unset_or_empty, EVM_PRIVATE_KEY,
    SVM_PRIVATE_KEY, SVM_RPC_URL.
  split; [|split].
  - rewrite andb_true_iff, !negb_true_iff, !or_else_empty_falsy. done.
  - rewrite <- or_else_empty_falsy.
    destruct (truthy (or_else (env !! "SVM_RPC_URL") "")); split; done.
  - intros cfg.
    destruct (truthy (or_else (env !! "SVM_RPC_URL") "")) eqn:Hurl; [|done].
    intros [= <-]. cbn. by apply or_else_empty_truthy.
Qed.

(** *** The percent is only reported *)

Lemma percent_keeps_configuration (env : gmap string string) (v : string) :
  EVM_PRIVATE_KEY (<["CASHBACK_PERCENT" := v]> env) = EVM_PRIVATE_KEY env /\
  SVM_PRIVATE_KEY (<["CASHBACK_PERCENT" := v]> env) = SVM_PRIVATE_KEY env /\
  EVM_RPC_URL (<["CASHBACK_PERCENT" := v]> env) = EVM_RPC_URL env /\
  x402Config (<["CASHBACK_PERCENT" := v]> env) = x402Config env /\
  <["CASHBACK_PERCENT" := v]> env !! "EVM_CASHBACK_TOKEN"
    = env !! "EVM_CASHBACK_TOKEN".
Proof.
  unfold x402Config, EVM_PRIVATE_KEY, SVM_PRIVATE_KEY, EVM_RPC_URL, SVM_RPC_URL.
  by rewrite !lookup_insert_ne.
Qed.

Lemma percent_keeps_send_cashback (env : gmap string string) (v : string) :
  send_cashback (<["CASHBACK_PERCENT" := v]> env) = send_cashback env.
Proof.
  destruct (percent_keeps_configuration env v) as (Hevm & _ & Hrpc & _ & Htok).
  unfold send_cashback, sendEvmCashback. by rewrite Hevm, Hrpc, Htok.
Qed.

(** X15. [CASHBACK_PERCENT] has no effect beyond being reported: setting
    it to any value leaves the final world, every library call and every
    console line but the "Cashback eligible" one unchanged, and the answer
    differs at most in [cashback.percent]. *)
Theorem settle_percent_is_only_reported
    (env : gmap string string) (v : string) (req : Request) (w : World) :
  let out := post_settle env req w in
  let out' := post_settle (<["CASHBACK_PERCENT" := v]> env) req w in
  world_of out' = world_of out /\
  List.filter (fun e => negb (is_eligible_log e)) (trace_of out')
    = List.filter (fun e => negb (is_eligible_log e)) (trace_of out) /\
  (forall resp', response_of out' = Ok resp' ->
     exists resp,
       response_of out = Ok resp /\ status resp' = status resp /\
       match body resp', body resp with
       | BSettle ok' st' c', BSettle ok st c =>
           ok' = ok /\ st' = st /\ amount c' = amount c /\ txHash c' = txHash c /\
           percent c' = Number_ (or_else (Some v) "2")
       | b', b => b' = b
       end).
Proof.
  cbn zeta.
  destruct (percent_keeps_configuration env v) as (Hevm & Hsvm & _ & Hcfg & _).
  unfold post_settle.
  rewrite Hevm, Hsvm, Hcfg, percent_keeps_send_cashback, lookup_insert_eq.
  unfold_monad. run.
  all: split; [reflexivity|]; split; [reflexivity|].
  all: intros resp' [= <-]; eexists; split; [reflexivity|]; cbn; by repeat split.
Qed.

End Properties.

(** * The properties on concrete runs *)

Module Scenarios.
Import Stub.

Lemma stub_families_disjoint : families_disjoint.
Proof.
  intros n Hn. unfold includes in *. cbn in *.
  destruct (String.eqb n "base-sepolia") eqn:Hsepolia.
  { apply String.eqb_eq in Hsepolia. by subst n. }
  destruct (String.eqb n "base") eqn:Hbase.
  { apply String.eqb_eq in Hbase. by subst n. }
  discriminate Hn.
Qed.

Lemma stub_rejects_empty_key : createSigner_rejects_empty_key.
Proof. intros net w. by eexists _, _. Qed.

(** The end-to-end scenario: a [base-sepolia] payment with a payer and a
    successful settlement. *)
Example settle_end_to_end :
  response_of (post_settle env_both evm_request calm)
    = Ok {| status := 200;
            body := BSettle true
                      {| success := true; transaction := "0xsettled";
                         settled_network := "base-sepolia" |}
                      {| amount := 1; txHash := Some "0xcashback";
                         percent := Some 2 |} |}.
Proof. vm_compute. reflexivity. Qed.

(** With one key configured the process starts; with none it exits. *)
Example startup_with_one_key :
  exits_at_startup env_svm_only = false /\ exits_at_startup ∅ = true.
Proof. split; vm_compute; reflexivity. Qed.

Example supported_kinds_svm_only :
  response_of (get_supported env_svm_only calm)
    = Ok {| status := 200;
            body := BSupported
              [ {| kind_x402Version := 1; kind_scheme := "exact";
                   kind_network := "solana-devnet";
                   extra := Some {| feePayer := Some "addr:svmkey" |} |} ] |}.
Proof. vm_compute. reflexivity. Qed.

(** An EVM payment whose cashback transfer reverts: answered with 400. *)
Lemma settle_cashback_failure_answers_400_witness :
  response_of (post_settle env_both evm_request (failing ["transfer"]))
    = Ok {| status := 400; body := BError "Error: transfer reverted" |}.
Proof.
  refine (proj1 (settle_cashback_failure_answers_400
            env_both evm_request (failing ["transfer"])
            (requirements "base-sepolia") (evm_payload "base-sepolia" alice)
            ("base-sepolia", "0xkey") (failing ["transfer"])
            {| success := true; transaction := "0xsettled";
               settled_network := "base-sepolia" |}
            (failing ["transfer"]) alice (Error_ "transfer reverted")
            (failing ["transfer"]) _ _ _ _ _ _ _ _ _));
    vm_compute; reflexivity.
Defined.

(** An EVM payment with a payer: the cashback is attempted. *)
Lemma settle_cashback_gate_witness :
  exists e, e ∈ trace_of (post_settle env_both evm_request calm) /\
            is_cashback_event e = true.
Proof.
  refine (proj2 (proj1 (settle_cashback_gate
            env_both evm_request calm
            (requirements "base-sepolia") (evm_payload "base-sepolia" alice)
            ("base-sepolia", "0xkey") calm
            {| success := true; transaction := "0xsettled";
               settled_network := "base-sepolia" |}
            calm _ _ _ _ _)) _);
    vm_compute; try reflexivity.
  repeat split; reflexivity.
Defined.

(** The default percent and the constant amount on a successful answer. *)
Lemma settle_cashback_amount_is_constant_witness :
  exists st c,
    BSettle true
      {| success := true; transaction := "0xsettled";
         settled_network := "base-sepolia" |}
      {| amount := 1; txHash := Some "0xcashback"; percent := Some 2 |}
    = BSettle true st c /\
    amount c = 1 /\ percent c = Some 2 /\
    (env_both !! "CASHBACK_PERCENT" = None -> percent c = Some 2).
Proof.
  refine (proj1 (settle_cashback_amount_is_constant
            env_both evm_request calm
            {| status := 200;
               body := BSettle true
                 {| success := true; transaction := "0xsettled";
                    settled_network := "base-sepolia" |}
                 {| amount := 1; txHash := Some "0xcashback";
                    percent := Some 2 |} |} _ _));
    vm_compute; reflexivity.
Defined.

(** An SVM verification builds a signer and nothing else. *)
Lemma verify_client_follows_network_witness :
  List.filter is_construction (trace_of (post_verify env_both svm_request calm))
    = [Invoke (CcreateSigner "solana-devnet" "svmkey")].
Proof.
  refine (proj1 (proj2 (verify_client_follows_network
            env_both svm_request calm
            (requirements "solana-devnet") (svm_payload "solana-devnet") _ _)
            stub_families_disjoint _));
    vm_compute; reflexivity.
Defined.

(** A network of neither family. *)
Lemma unsupported_network_answers_400_witness :
  response_of (post_verify env_both bad_network_request calm)
    = Ok {| status := 400; body := BError "Invalid request" |}.
Proof.
  refine (proj1 (proj1 (unsupported_network_answers_400
            env_both bad_network_request calm (requirements "mainnet") _ _ _)));
    vm_compute; reflexivity.
Defined.

(** A rejected decimals lookup: one token is sent as 10^18 base units. *)
Lemma decimals_failure_falls_back_to_18_witness :
  response_of (sendEvmCashback env_both alice (Some "0xtoken") 1
                 (failing ["decimals"])) = Ok "0xcashback" /\
  world_of (sendEvmCashback env_both alice (Some "0xtoken") 1
              (failing ["decimals"]))
    = {| faults := ["decimals"]; ledger := [(alice, 1000000000000000000)] |}.
Proof.
  refine (proj2 (decimals_failure_falls_back_to_18
            env_both alice (Some "0xtoken") 1 (failing ["decimals"])
            "https://sepolia.base.org" "0xkey" (Some "0xtoken")
            (Error_ "decimals failed") (failing ["decimals"])
            1000000000000000000 _ _ _ _ _)
          "0xcashback"
          {| faults := ["decimals"]; ledger := [(alice, 1000000000000000000)] |}
          _ _ _);
    vm_compute; reflexivity.
Defined.

(** Only the SVM key is configured and the payment is on an EVM network. *)
Lemma settle_empty_key_fails_witness :
  exists e w1,
    createSigner "base-sepolia" "" calm = (Throw e, w1) /\
    post_settle env_svm_only evm_request calm =
      (Ok {| status := 400; body := BError (String_ e) |}, w1,
       [ Invoke (CcreateSigner "base-sepolia" "");
         Threw (CcreateSigner "base-sepolia" "") e;
         Log (LogSettleError e) ]).
Proof.
  refine (proj1 (settle_empty_key_fails env_svm_only evm_request calm
            (requirements "base-sepolia") (evm_payload "base-sepolia" alice)
            stub_rejects_empty_key _ _) _ _);
    first [ left; vm_compute; reflexivity | vm_compute; reflexivity ].
Defined.

(** A receipt whose own flag says failure still yields [success: true]. *)
Definition unpriced : PaymentRequirements :=
  {| scheme := "exact"; network := "solana-devnet"; maxAmountRequired := "0";
     asset := ""; payTo := "" |}.

Lemma settle_does_not_inspect_receipt_witness :
  response_of (post_settle env_both
                 (request unpriced (svm_payload "solana-devnet")) calm)
    = Ok {| status := 200;
            body := BSettle true
                      {| success := false; transaction := "0xsettled";
                         settled_network := "solana-devnet" |}
                      {| amount := 1; txHash := None; percent := Some 2 |} |}.
Proof.
  refine (proj1 (proj2 (settle_does_not_inspect_receipt
            env_both (request unpriced (svm_payload "solana-devnet")) calm
            unpriced (svm_payload "solana-devnet")
            ("solana-devnet", "svmkey") calm
            {| success := false; transaction := "0xsettled";
               settled_network := "solana-devnet" |}
            calm _ _ _ _ _)) None calm [] _);
    vm_compute; reflexivity.
Defined.

(** The signer construction of [GET /supported] throws: no response. *)
Lemma supported_has_no_error_boundary_witness :
  response_of (get_supported env_both (failing ["createSigner"]))
    = Throw (Error_ "createSigner failed").
Proof.
  refine (proj1 (proj1 (proj2 (supported_has_no_error_boundary
            env_both (failing ["createSigner"]) _))
            (Error_ "createSigner failed") (failing ["createSigner"]) _));
    vm_compute; reflexivity.
Defined.

(** C9 as stated fails: [settle] has returned its receipt, the cashback
    transfer reverts, and the response is the 400 of the error boundary, not
    [{success: true, ...}]. *)
Lemma settle_success_true_fails_when_cashback_throws :
  ~ ((exists e,
        e ∈ trace_of (post_settle env_both evm_request (failing ["transfer"])) /\
        settle_returned e = true) ->
     exists st c,
       response_of (post_settle env_both evm_request (failing ["transfer"]))
         = Ok (json (BSettle true st c))).
Proof.
  intros Hclaim. destruct Hclaim as (st & c & Hresp).
  - exists (Returned (Csettle (signer_for "base-sepolia" "0xkey")
                       (evm_payload "base-sepolia" alice)
                       (requirements "base-sepolia") None)).
    split; [|reflexivity]. apply list_elem_of_In. vm_compute.
    do 3 right. left. reflexivity.
  - vm_compute in Hresp. discriminate Hresp.
Qed.

End Scenarios.

(** * The further properties on concrete runs *)

Module MoreScenarios.
Import Stub.

(** A body whose [paymentRequirements] is missing. *)
Definition empty_body_request : Request :=
  {| body_paymentPayload := JUndefined; body_paymentRequirements := JUndefined |}.

Lemma verify_verdict_is_verbatim_witness :
  exists c p r w1,
    PaymentRequirementsSchema_parse (body_paymentRequirements evm_request) = Ok r /\
    PaymentPayloadSchema_parse (body_paymentPayload evm_request) = Ok p /\
    verify c p r (x402Config env_both) w1
      = (Ok true, world_of (post_verify env_both evm_request calm)) /\
    List.filter verify_invoked (trace_of (post_verify env_both evm_request calm))
      = [Invoke (Cverify c p r (x402Config env_both))].
Proof.
  refine (verify_verdict_is_verbatim env_both evm_request calm true _).
  vm_compute; reflexivity.
Defined.

Lemma invalid_body_has_no_effect_witness :
  post_verify env_both empty_body_request calm =
    (Ok {| status := 400; body := BError "Invalid request" |}, calm,
     [Log (LogVerifyError ZodError)]) /\
  post_settle env_both empty_body_request calm =
    (Ok {| status := 400; body := BError (String_ ZodError) |}, calm,
     [Log (LogSettleError ZodError)]).
Proof.
  refine (invalid_body_has_no_effect env_both empty_body_request calm ZodError _).
  left. vm_compute; reflexivity.
Defined.


Lemma settle_failure_answers_400_witness :
  post_settle env_both evm_request (failing ["settle"]) =
    (Ok {| status := 400; body := BError (String_ (Error_ "settle failed")) |},
     failing ["settle"],
     [ Invoke (CcreateSigner "base-sepolia" (settle_key env_both "base-sepolia"));
       Returned (CcreateSigner "base-sepolia" (settle_key env_both "base-sepolia"));
       Invoke (Csettle (signer_for "base-sepolia" "0xkey")
                 (evm_payload "base-sepolia" alice)
                 (requirements "base-sepolia") (x402Config env_both));
       Threw (Csettle (signer_for "base-sepolia" "0xkey")
                (evm_payload "base-sepolia" alice)
                (requirements "base-sepolia") (x402Config env_both))
             (Error_ "settle failed");
       Log (LogSettleError (Error_ "settle failed")) ]).
Proof.
  refine (settle_failure_answers_400 env_both evm_request (failing ["settle"])
            (requirements "base-sepolia") (evm_payload "base-sepolia" alice)
            (signer_for "base-sepolia" "0xkey") (failing ["settle"])
            (Error_ "settle failed") (failing ["settle"]) _ _ _ _ _);
    vm_compute; reflexivity.
Defined.

Lemma settle_with_cashback_answers_hash_witness :
  response_of (post_settle env_both evm_request calm) =
    Ok {| status := 200;
          body := BSettle true
                    {| success := true; transaction := "0xsettled";
                       settled_network := "base-sepolia" |}
                    {| amount := 1; txHash := Some "0xcashback";
                       percent := Number_ (or_else (env_both !! "CASHBACK_PERCENT") "2") |} |} /\
  world_of (post_settle env_both evm_request calm)
    = {| faults := []; ledger := [(alice, 1000000)] |}.
Proof.
  refine (settle_with_cashback_answers_hash env_both evm_request calm
            (requirements "base-sepolia") (evm_payload "base-sepolia" alice)
            (signer_for "base-sepolia" "0xkey") calm
            {| success := true; transaction := "0xsettled";
               settled_network := "base-sepolia" |}
            calm alice "0xcashback"
            {| faults := []; ledger := [(alice, 1000000)] |}
            _ _ _ _ _ _ _ _ _);
    vm_compute; reflexivity.
Defined.

Lemma sendEvmCashback_scales_by_token_decimals_witness :
  response_of (sendEvmCashback env_both alice (Some "0xtoken") 1 calm)
    = Ok "0xcashback" /\
  world_of (sendEvmCashback env_both alice (Some "0xtoken") 1 calm)
    = {| faults := []; ledger := [(alice, 1000000)] |}.
Proof.
  refine (proj2 (sendEvmCashback_scales_by_token_decimals
            env_both alice (Some "0xtoken") 1 calm
            "https://sepolia.base.org" "0xkey" (Some "0xtoken")
            6 calm 1000000 _ _ _ _ _)
          "0xcashback" {| faults := []; ledger := [(alice, 1000000)] |} _ _ _);
    vm_compute; reflexivity.
Defined.

Lemma supported_kinds_follow_keys_witness :
  exists kinds,
    {| status := 200;
       body := BSupported
         [ {| kind_x402Version := 1; kind_scheme := "exact";
              kind_network := "base-sepolia"; extra := None |};
           {| kind_x402Version := 1; kind_scheme := "exact";
              kind_network := "solana-devnet";
              extra := Some {| feePayer := Some "addr:svmkey" |} |} ] |}
      = {| status := 200; body := BSupported kinds |} /\
    ((exists k, k ∈ kinds /\ kind_network k = "base-sepolia")
       <-> truthy (EVM_PRIVATE_KEY env_both) = true) /\
    ((exists k, k ∈ kinds /\ kind_network k = "solana-devnet")
       <-> truthy (SVM_PRIVATE_KEY env_both) = true) /\
    (forall k, k ∈ kinds -> kind_x402Version k = 1 /\ kind_scheme k = "exact") /\
    (kinds = [] <-> exits_at_startup env_both = true) /\
    (truthy (SVM_PRIVATE_KEY env_both) = false ->
       trace_of (get_supported env_both calm) = [] /\
       world_of (get_supported env_both calm) = calm).
Proof.
  refine (supported_kinds_follow_keys env_both calm _ _).
  vm_compute; reflexivity.
Defined.

End MoreScenarios.
